(** * Local-RAG-LLM: the multi-agent pipeline and its generation client

    A shallow embedding of [app/rag.py], [app/ollama_client.py],
    [app/config_loader.py], [app/agents/*.py] and of [retrieve] from
    [app/indexer.py], followed by the properties of the pipeline
    orchestrator that the specification states.

    Python dictionaries are finite maps ([gmap]), a missing key of a
    dictionary with a fixed set of possible keys is an [option] field,
    exceptions are values of [exn] carried by [result], and the calls that
    leave the process (HTTP, the clock, the vector index) are answered by a
    [world], indexed by how many calls were made before. *)

From Stdlib Require Import Ascii String ZArith.
From stdpp Require Import gmap strings list fin_maps pretty.

Open Scope string_scope.

(* stdpp's solvers clear hypotheses by name *)
Set Warnings "-clear-no-such-hyp".

(** ** Python values and exceptions *)

(** The values that occur in generation options and request payloads.
    A float is carried by its [repr] (["0.9"]), which Python round-trips. *)
#[warnings="-register-all"]
Inductive pyval : Type :=
  | PNone
  | PBool (b : bool)
  | PInt (z : Z)
  | PFloat (repr : string)
  | PStr (s : string)
  | PList (l : list pyval).

Definition is_None (v : pyval) : bool :=
  match v with PNone => true | _ => false end.

(** The line feed, ["\n"]. *)
Definition nl : string := String (ascii_of_nat 10) EmptyString.

(** The exceptions the modelled code raises or receives.  All of them derive
    from [Exception]; [RequestsConnectTimeout] derives from both
    [requests.exceptions.ConnectionError] and [requests.exceptions.Timeout]. *)
Inductive exn : Type :=
  | KeyError (arg : string)
  | TypeError (msg : string)
  | UnboundLocalError (var : string)
  | PyException (msg : string)
  | RequestsTimeout (msg : string)
  | RequestsConnectTimeout (msg : string)
  | RequestsConnectionError (msg : string)
  | OtherException (type_name msg : string).

Inductive result (A : Type) : Type :=
  | Ok (a : A)
  | Raise (e : exn).
Arguments Ok {A} a.
Arguments Raise {A} e.

(** [type(e).__name__] *)
Definition exn_type_name (e : exn) : string :=
  match e with
  | KeyError _ => "KeyError"
  | TypeError _ => "TypeError"
  | UnboundLocalError _ => "UnboundLocalError"
  | PyException _ => "Exception"
  | RequestsTimeout _ => "Timeout"
  | RequestsConnectTimeout _ => "ConnectTimeout"
  | RequestsConnectionError _ => "ConnectionError"
  | OtherException n _ => n
  end.

(** [isinstance(e, requests.exceptions.Timeout)] *)
Definition is_Timeout (e : exn) : bool :=
  match e with
  | RequestsTimeout _ | RequestsConnectTimeout _ => true
  | _ => false
  end.

(** [isinstance(e, requests.exceptions.ConnectionError)] *)
Definition is_ConnectionError (e : exn) : bool :=
  match e with
  | RequestsConnectionError _ | RequestsConnectTimeout _ => true
  | _ => false
  end.

(** ** The outside world *)

(** A retrieved passage: [p.node.text] and [p.metadata]. *)
Record passage : Type := Passage {
  node_text : string;
  metadata : gmap string string
}.

(** An HTTP reply as [generate] uses it: what [raise_for_status()] does and
    what [json()] gives.  The decoded object maps field names to strings, as
    the annotation [-> str] of [generate] expects of its ["response"]. *)
Record response : Type := Response {
  raise_for_status : result unit;
  json : result (gmap string string)
}.

(** Calls made so far: [requests.post] and [time.time]. *)
Record io : Type := Io {
  posts : nat;
  clock_reads : nat
}.

Record world : Type := World {
  OLLAMA_URL : string;
  (** the n-th [requests.post(url, json=payload, timeout=timeout)] *)
  requests_post : nat → string → gmap string pyval → pyval → result response;
  (** the n-th reading of [time.time()], in clock ticks *)
  clock : nat → Z;
  LLAMA_INDEX_AVAILABLE : bool;
  (** [get_index()]: the loaded index, as its retriever, or [None] *)
  get_index : result (option (string → nat → result (list passage)))
}.

(** ** A state and exception monad over [io] *)

Definition M (A : Type) : Type := io → io * result A.

Definition ret {A} (a : A) : M A := λ σ, (σ, Ok a).

Definition bind {A B} (m : M A) (k : A → M B) : M B :=
  λ σ, match m σ with
       | (σ', Ok a) => k a σ'
       | (σ', Raise e) => (σ', Raise e)
       end.

Definition raise {A} (e : exn) : M A := λ σ, (σ, Raise e).

(** [try: m  except Exception as e: h e] *)
Definition try_except {A} (m : M A) (h : exn → M A) : M A :=
  λ σ, match m σ with
       | (σ', Ok a) => (σ', Ok a)
       | (σ', Raise e) => h e σ'
       end.

(** A pure computation that may raise. *)
Definition lift {A} (r : result A) : M A := λ σ, (σ, r).

#[global] Instance M_ret : MRet M := @ret.
#[global] Instance M_bind : MBind M := λ A B k m, bind m k.

(** [time.time()] *)
Definition time_time (w : world) : M Z :=
  λ σ, (Io (posts σ) (S (clock_reads σ)), Ok (clock w (clock_reads σ))).

(** [requests.post(url, json=payload, timeout=timeout)] *)
Definition post (w : world) (url : string) (payload : gmap string pyval)
    (timeout : pyval) : M response :=
  λ σ, (Io (S (posts σ)) (clock_reads σ),
        requests_post w (posts σ) url payload timeout).

Section Python.

(** [repr] of a [str]: the quoting and escaping rules of the interpreter. *)
Variable repr_str : string → string.

Fixpoint py_repr (v : pyval) : string :=
  match v with
  | PNone => "None"
  | PBool true => "True"
  | PBool false => "False"
  | PInt z => pretty z
  | PFloat r => r
  | PStr s => repr_str s
  | PList l => "[" +:+ String.concat ", " (map py_repr l) +:+ "]"
  end.

(** [str(v)], which is [f"{v}"] *)
Definition py_str (v : pyval) : string :=
  match v with
  | PStr s => s
  | _ => py_repr v
  end.

(** [str(e)] *)
Definition exn_str (e : exn) : string :=
  match e with
  | KeyError arg => repr_str arg
  | TypeError msg => msg
  | UnboundLocalError var =>
      "cannot access local variable '" +:+ var
        +:+ "' where it is not associated with a value"
  | PyException msg => msg
  | RequestsTimeout msg => msg
  | RequestsConnectTimeout msg => msg
  | RequestsConnectionError msg => msg
  | OtherException _ msg => msg
  end.

(** ** app/config_loader.py *)

(** An entry of the [agents] section.  Only the keys the pipeline reads. *)
Record agent_config : Type := AgentConfig {
  ac_name : option string;
  ac_description : option string;
  ac_system_prompt : option string;
  ac_parameters : option (gmap string pyval)
}.

(** An entry of [pipeline.steps].  ["name"] and ["agent"] are subscripted by
    the pipeline, the other two are read with [.get]. *)
Record pipeline_step : Type := PipelineStep {
  step_name : string;
  step_agent : string;
  step_estimated_time : option pyval;
  step_description : option string
}.

(** The loaded YAML document, [ConfigLoader.config]. *)
Record config : Type := Config {
  cfg_agents : option (gmap string agent_config);
  (** the [pipeline] section, and inside it the [steps] key *)
  cfg_pipeline : option (option (list pipeline_step))
}.

Definition get_agent_config (cfg : config) (agent_name : string)
    : result agent_config :=
  match cfg_agents cfg with
  | None => Raise (KeyError "No agents section found in configuration")
  | Some agents =>
      match agents !! agent_name with
      | None =>
          Raise (KeyError ("Agent '" +:+ agent_name
                             +:+ "' not found in configuration"))
      | Some agent => Ok agent
      end
  end.

Definition get_agent_prompt (cfg : config) (agent_name : string)
    : result string :=
  match get_agent_config cfg agent_name with
  | Ok agent => Ok (default "" (ac_system_prompt agent))
  | Raise e => Raise e
  end.

Definition get_agent_parameters (cfg : config) (agent_name : string)
    : result (gmap string pyval) :=
  match get_agent_config cfg agent_name with
  | Ok agent => Ok (default ∅ (ac_parameters agent))
  | Raise e => Raise e
  end.

Definition get_pipeline_steps (cfg : config)
    : result (list pipeline_step) :=
  match cfg_pipeline cfg with
  | None => Raise (KeyError "No pipeline section found in configuration")
  | Some pipeline => Ok (default [] pipeline)
  end.

(** ** app/ollama_client.py *)

(** [kwargs.get(key, dflt)] *)
Definition kwargs_get (kwargs : gmap string pyval) (key : string)
    (dflt : pyval) : pyval :=
  default dflt (kwargs !! key).

(** The dictionary literal that starts the payload. *)
Definition base_payload (prompt system_prompt model : string)
    (kwargs : gmap string pyval) : gmap string pyval :=
  <["stop" := kwargs_get kwargs "stop" (PList [PStr (nl +:+ nl +:+ nl)])]>
  (<["num_ctx" := kwargs_get kwargs "num_ctx" (PInt 2048)]>
  (<["repeat_penalty" := kwargs_get kwargs "repeat_penalty" (PFloat "1.1")]>
  (<["temperature" := kwargs_get kwargs "temperature" (PFloat "0.7")]>
  (<["top_p" := kwargs_get kwargs "top_p" (PFloat "0.9")]>
  (<["top_k" := kwargs_get kwargs "top_k" (PInt 40)]>
  (<["num_predict" :=
       kwargs_get kwargs "num_predict"
         (kwargs_get kwargs "max_tokens" (PInt 512))]>
  (<["stream" := PBool false]>
  (<["prompt" := PStr (system_prompt +:+ nl +:+ prompt)]>
  (<["model" := PStr model]> ∅))))))))).

(** One turn of [for key, value in kwargs.items()]. *)
Definition override (key : string) (value : pyval)
    (payload : gmap string pyval) : gmap string pyval :=
  if negb (is_None value) && negb (String.eqb key "max_tokens")
  then <[key := value]> payload
  else payload.

Definition build_payload (prompt system_prompt model : string)
    (kwargs : gmap string pyval) : gmap string pyval :=
  map_fold override (base_payload prompt system_prompt model kwargs) kwargs.

Definition timeout_message (timeout : pyval) (model : string) : string :=
  "Ollama request timed out after " +:+ py_str timeout
    +:+ " seconds. Model: " +:+ model.

Definition connection_message (w : world) : string :=
  "Could not connect to Ollama server at " +:+ OLLAMA_URL w.

Definition failure_message (e : exn) : string :=
  "Ollama request failed: " +:+ exn_str e.

(** [response_data["response"]] *)
Definition subscript (d : gmap string string) (key : string)
    : result string :=
  match d !! key with
  | Some v => Ok v
  | None => Raise (KeyError key)
  end.

Definition generate (w : world) (prompt system_prompt model : string)
    (kwargs : gmap string pyval) : M string :=
  let payload := build_payload prompt system_prompt model kwargs in
  let timeout := kwargs_get kwargs "timeout" (PInt 120) in
  try_except
    (start_time ← time_time w;
     resp ← post w (OLLAMA_URL w +:+ "/api/generate") payload timeout;
     end_time ← time_time w;
     lift (raise_for_status resp);;
     response_data ← lift (json resp);
     result ← lift (subscript response_data "response");
     mret result)
    (λ e,
       if is_Timeout e then
         raise (PyException (timeout_message timeout model))
       else if is_ConnectionError e then
         raise (PyException (connection_message w))
       else
         raise (PyException (failure_message e))).

(** ** app/agents/*.py *)

Inductive agent_cls : Type :=
  | DecomposerAgent
  | CritiqueAgent
  | SynthesisAgent
  | ReportFormatterAgent.

(** The name under which a class reads its system prompt and parameters. *)
Definition agent_key (a : agent_cls) : string :=
  match a with
  | DecomposerAgent => "decomposer"
  | CritiqueAgent => "critique"
  | SynthesisAgent => "synthesis"
  | ReportFormatterAgent => "report_formatter"
  end.

(** [generate(prompt, system_prompt=system_prompt, model=model, **parameters)]:
    a key of [parameters] that names one of the three bound arguments makes
    the call itself fail (the wording of the message is CPython's). *)
Definition call_generate (w : world) (prompt system_prompt model : string)
    (parameters : gmap string pyval) : M string :=
  match filter (λ k, bool_decide (is_Some (parameters !! k)))
               ["prompt"; "system_prompt"; "model"] with
  | k :: _ =>
      raise (TypeError
               ("generate() got multiple values for argument '" +:+ k +:+ "'"))
  | [] => generate w prompt system_prompt model parameters
  end.

(** [<Agent>.run(prompt, model)]; the [try] of [DecomposerAgent.run] only
    prints and re-raises. *)
Definition agent_run (w : world) (cfg : config) (a : agent_cls)
    (prompt model : string) : M string :=
  system_prompt ← lift (get_agent_prompt cfg (agent_key a));
  parameters ← lift (get_agent_parameters cfg (agent_key a));
  call_generate w prompt system_prompt model parameters.

(** ** app/indexer.py: [retrieve] *)

Definition retrieve (w : world) (query : string) (k : nat) : list passage :=
  if negb (LLAMA_INDEX_AVAILABLE w) then []
  else
    match get_index w with
    | Ok (Some index) =>
        match index query k with
        | Ok passages => passages
        | Raise _ => []
        end
    | Ok None => []
    | Raise _ => []
    end.

(** ** app/rag.py *)

Definition AGENT_MAP : gmap string agent_cls :=
  <["report_formatter" := ReportFormatterAgent]>
  (<["synthesis" := SynthesisAgent]>
  (<["critique" := CritiqueAgent]>
  (<["decomposer" := DecomposerAgent]> ∅))).

(** [if source and source != "Unknown"], for a label or [None] *)
Definition known_source (source : option string) : bool :=
  match source with
  | Some s => negb (String.eqb s "") && negb (String.eqb s "Unknown")
  | None => false
  end.

(** The entry appended for [source] at position [i]. *)
Definition source_line (i : nat) (source : option string) : string :=
  if known_source source
  then pretty i +:+ ". **" +:+ default "" source +:+ "**"
  else pretty i +:+ ". Unknown source".

(** [md_sources] after [for i, source in enumerate(sources, i)] *)
Fixpoint md_sources (i : nat) (sources : list (option string))
    : list string :=
  match sources with
  | [] => []
  | source :: rest => source_line i source :: md_sources (S i) rest
  end.

Definition sources_to_markdown (sources : list (option string)) : string :=
  match sources with
  | [] => "No sources available"
  | _ :: _ => String.concat nl (md_sources 1 sources)
  end.

(** [ctx.get(key, 'N/A')] *)
Definition ctx_get (ctx : gmap string string) (key : string) : string :=
  default "N/A" (ctx !! key).

(** The [if agent_name == ...] chain: the prompt and the output key.  Every
    branch subscripts [agent_config['description']]. *)
Definition render_prompt (agent_name step_name : string)
    (agent_config : agent_config) (query context sources_md : string)
    (ctx : gmap string string) : result (string * string) :=
  match ac_description agent_config with
  | None => Raise (KeyError "description")
  | Some description =>
      let head := "## " +:+ step_name +:+ nl +:+ nl +:+ description
                    +:+ nl +:+ nl in
      if String.eqb agent_name "decomposer" then
        Ok (head +:+ "### User Query" +:+ nl +:+ query +:+ nl +:+ nl
              +:+ "### Context" +:+ nl +:+ context +:+ nl +:+ nl
              +:+ "Please break down this research question into structured components.",
            "breakdown")
      else if String.eqb agent_name "critique" then
        Ok (head +:+ "### Breakdown" +:+ nl +:+ ctx_get ctx "breakdown"
              +:+ nl +:+ nl
              +:+ "### Context" +:+ nl +:+ context +:+ nl +:+ nl
              +:+ "Please review and improve this research framework.",
            "critique")
      else if String.eqb agent_name "synthesis" then
        Ok (head +:+ "### Breakdown" +:+ nl +:+ ctx_get ctx "breakdown"
              +:+ nl +:+ nl
              +:+ "### Critique" +:+ nl +:+ ctx_get ctx "critique"
              +:+ nl +:+ nl
              +:+ "### Context" +:+ nl +:+ context +:+ nl +:+ nl
              +:+ "Please synthesize this information into a comprehensive analysis.",
            "synthesis")
      else if String.eqb agent_name "report_formatter" then
        Ok (head +:+ "**Topic:** " +:+ query +:+ nl +:+ nl
              +:+ "**Breakdown:** " +:+ ctx_get ctx "breakdown" +:+ nl +:+ nl
              +:+ "**Critique:** " +:+ ctx_get ctx "critique" +:+ nl +:+ nl
              +:+ "**Synthesis:** " +:+ ctx_get ctx "synthesis" +:+ nl +:+ nl
              +:+ "**Sources:** " +:+ sources_md +:+ nl +:+ nl
              +:+ "Please create a comprehensive, professional report.",
            "final_report")
      else
        Ok ("## " +:+ step_name +:+ nl +:+ nl +:+ description +:+ nl +:+ nl
              +:+ "Please process the following information:" +:+ nl
              +:+ context,
            agent_name +:+ "_output")
  end.

(** An entry of the step log. *)
Record step_result : Type := StepResult {
  sr_name : string;
  sr_output : string;
  sr_markdown : bool;
  sr_step_number : nat;
  sr_agent_name : string;
  sr_estimated_time : pyval;
  sr_description : string;
  sr_execution_time : Z
}.

(** The dictionary [run_pipeline] returns; a key that a branch leaves out is
    [None]. *)
Record execution_summary_t : Type := ExecutionSummary {
  total_time : Z;
  steps_completed : nat;
  model_used : string
}.

Record pipeline_result : Type := PipelineResult {
  answer : string;
  sources : list (option string);
  debug_steps : list step_result;
  pipeline_complete : bool;
  partial_success : option bool;
  error : option string;
  total_steps : nat;
  execution_summary : option execution_summary_t
}.

(** [AGENT_MAP[agent_name]] *)
Definition agent_class (agent_name : string) : result agent_cls :=
  match AGENT_MAP !! agent_name with
  | Some agent_cls => Ok agent_cls
  | None => Raise (KeyError agent_name)
  end.

(** The part of one turn of the step loop that can raise: from the look-up
    of the agent to the second reading of the clock.  It gives the output
    key, the output and the execution time. *)
Definition run_step (w : world) (cfg : config)
    (query context sources_md model : string) (ctx : gmap string string)
    (step : pipeline_step) : M (string * string * Z) :=
  let agent_name := step_agent step in
  agent_cls ← lift (agent_class agent_name);
  agent_config ← lift (get_agent_config cfg agent_name);
  '(prompt, output_key) ←
    lift (render_prompt agent_name (step_name step) agent_config
            query context sources_md ctx);
  start_time ← time_time w;
  output ← agent_run w cfg agent_cls prompt model;
  end_time ← time_time w;
  mret (output_key, output, (end_time - start_time)%Z).

(** The entry appended to [steps] by turn [i] (counted from 0). *)
Definition step_entry (i : nat) (step : pipeline_step) (output : string)
    (execution_time : Z) : step_result :=
  {| sr_name := step_name step;
     sr_output := output;
     sr_markdown := true;
     sr_step_number := i + 1;
     sr_agent_name := step_agent step;
     sr_estimated_time := default (PInt 2) (step_estimated_time step);
     sr_description := default "" (step_description step);
     sr_execution_time := execution_time |}.

(** [for i, step in enumerate(pipeline_steps)], from turn [i] on: the
    dictionary [ctx] and the list [steps] as the loop leaves them, and the
    exception that ended it, if one did. *)
Fixpoint run_steps (w : world) (cfg : config)
    (query context sources_md model : string)
    (i : nat) (pipeline_steps : list pipeline_step)
    (ctx : gmap string string) (steps : list step_result) (σ : io)
    : gmap string string * list step_result * io * option exn :=
  match pipeline_steps with
  | [] => (ctx, steps, σ, None)
  | step :: rest =>
      match run_step w cfg query context sources_md model ctx step σ with
      | (σ', Raise step_error) => (ctx, steps, σ', Some step_error)
      | (σ', Ok (output_key, output, execution_time)) =>
          run_steps w cfg query context sources_md model (S i) rest
            (<[output_key := output]> ctx)
            (steps ++ [step_entry i step output execution_time]) σ'
      end
  end.

(** The local variables the [except] branch of [run_pipeline] reads, bound
    or not when the exception reaches it. *)
Record frame : Type := Frame {
  fr_context : option string;
  fr_sources : option (list (option string));
  fr_steps : option (list step_result)
}.

(** Reading a local variable. *)
Definition local {A} (v : option A) (name : string) : M A :=
  match v with
  | Some a => mret a
  | None => raise (UnboundLocalError name)
  end.

Definition error_message (steps : list step_result) (e : exn) : string :=
  "Pipeline failed at step " +:+ pretty (length steps + 1) +:+ ": "
    +:+ exn_str e.

Definition partial_context (query context : string)
    (steps : list step_result) : string :=
  fold_left
    (λ acc step,
       acc +:+ nl +:+ sr_name step +:+ ":" +:+ nl +:+ sr_output step +:+ nl)
    steps
    ("Query: " +:+ query +:+ nl +:+ nl +:+ "Context: " +:+ context
       +:+ nl +:+ nl).

Definition fallback_prompt (query context : string)
    (steps : list step_result) : string :=
  "Based on the following completed research steps, provide a summary of what was accomplished:"
    +:+ nl +:+ nl +:+ partial_context query context steps.

Definition fallback_system_prompt : string :=
  "You are a research assistant. Provide a clear summary of the completed research steps.".

Definition partial_marker : string :=
  "⚠️ Pipeline partially completed. Here's what was accomplished:"
    +:+ nl +:+ nl.

Definition partial_result (fallback_response : string)
    (sources : list (option string)) (steps : list step_result)
    (error_msg : string) : pipeline_result :=
  {| answer := partial_marker +:+ fallback_response;
     sources := sources;
     debug_steps := steps;
     pipeline_complete := false;
     partial_success := Some true;
     error := Some error_msg;
     total_steps := length steps;
     execution_summary := None |}.

Definition failure_result (sources : list (option string))
    (error_msg : string) : pipeline_result :=
  {| answer := "❌ Pipeline failed completely: " +:+ error_msg;
     sources := sources;
     debug_steps := [];
     pipeline_complete := false;
     partial_success := Some false;
     error := Some error_msg;
     total_steps := 0;
     execution_summary := None |}.

Definition success_result (ctx : gmap string string)
    (sources : list (option string)) (steps : list step_result)
    (model : string) : pipeline_result :=
  {| answer :=
       default "Pipeline completed but no final report generated"
               (ctx !! "final_report");
     sources := sources;
     debug_steps := steps;
     pipeline_complete := true;
     partial_success := None;
     error := None;
     total_steps := length steps;
     execution_summary :=
       Some {| total_time := fold_left Z.add (sr_execution_time <$> steps) 0%Z;
               steps_completed := length steps;
               model_used := model |} |}.

(** The [except Exception as e] branch of [run_pipeline]. *)
Definition handle_failure (w : world) (query model : string) (fr : frame)
    (e : exn) : M pipeline_result :=
  steps ← local (fr_steps fr) "steps";
  let error_msg := error_message steps e in
  partial ←
    match steps with
    | [] => mret None
    | _ :: _ =>
        try_except
          (context ← local (fr_context fr) "context";
           fallback_response ←
             generate w (fallback_prompt query context steps)
               fallback_system_prompt model ∅;
           sources ← local (fr_sources fr) "sources";
           mret (Some (partial_result fallback_response sources steps
                         error_msg)))
          (λ fallback_error, mret None)
    end;
  match partial with
  | Some r => mret r
  | None =>
      sources ← local (fr_sources fr) "sources";
      mret (failure_result sources error_msg)
  end.

Definition seed_context (query context sources_md : string)
    : gmap string string :=
  <["sources_md" := sources_md]>
  (<["context" := context]>
  (<["query" := query]> ∅)).

(** [p.metadata.get("source")] for every passage *)
Definition passage_sources (passages : list passage)
    : list (option string) :=
  (λ p, metadata p !! "source") <$> passages.

Definition run_pipeline (w : world) (cfg : config) (query model : string)
    : M pipeline_result :=
  λ σ,
    match get_pipeline_steps cfg with
    | Raise e => handle_failure w query model (Frame None None None) e σ
    | Ok pipeline_steps =>
        let passages := retrieve w query 8 in
        let context := String.concat nl (node_text <$> passages) in
        let sources := passage_sources passages in
        let sources_md := sources_to_markdown sources in
        let ctx := seed_context query context sources_md in
        match run_steps w cfg query context sources_md model
                0 pipeline_steps ctx [] σ with
        | (_, steps, σ', Some e) =>
            handle_failure w query model
              (Frame (Some context) (Some sources) (Some steps)) e σ'
        | (ctx', steps, σ', None) =>
            (σ', Ok (success_result ctx' sources steps model))
        end
    end.

End Python.

(** ** The declared output keys ([app/pipeline_config.py]) *)

(** [output_key] of [get_pipeline_prompts], per agent name. *)
Definition declared_output_key (agent_name : string) : string :=
  if String.eqb agent_name "decomposer" then "breakdown"
  else if String.eqb agent_name "critique" then "critique"
  else if String.eqb agent_name "synthesis" then "synthesis"
  else if String.eqb agent_name "report_formatter" then "final_report"
  else agent_name +:+ "_output".

(** The three keys [ctx] starts with. *)
Definition seed_keys : gset string :=
  {[ "query"; "context"; "sources_md" ]}.

(** ** The default generation options, as the specification lists them

    Prediction-length cap, top-k, nucleus-sampling threshold, temperature,
    repeat penalty, context window size and stop sequences. *)
Definition default_options : gmap string pyval :=
  <["stop" := PList [PStr (nl +:+ nl +:+ nl)]]>
  (<["num_ctx" := PInt 2048]>
  (<["repeat_penalty" := PFloat "1.1"]>
  (<["temperature" := PFloat "0.7"]>
  (<["top_p" := PFloat "0.9"]>
  (<["top_k" := PInt 40]>
  (<["num_predict" := PInt 512]> ∅)))))).

(** The default of an option for a given call: the prediction-length cap
    falls back on the caller's [max_tokens] before the built-in 512. *)
Definition default_option (kwargs : gmap string pyval) (key : string)
    : option pyval :=
  if String.eqb key "num_predict"
  then Some (kwargs_get kwargs "max_tokens" (PInt 512))
  else default_options !! key.

(** How the entry of position [i] (from 1) reads in the markdown list. *)
Definition rendered_source (i : nat) (source : option string) : string :=
  match source with
  | None => pretty i +:+ ". Unknown source"
  | Some s =>
      if decide (s = "" ∨ s = "Unknown")
      then pretty i +:+ ". Unknown source"
      else pretty i +:+ ". **" +:+ s +:+ "**"
  end.

(** What the log entry of turn [i] records of its step. *)
Definition records (i : nat) (step : pipeline_step) (entry : step_result)
    : Prop :=
  sr_name entry = step_name step
  ∧ sr_agent_name entry = step_agent step
  ∧ sr_step_number entry = i + 1.

(** ** What a run starts from *)

(** [context], [sources] and the seeded [ctx] of [run_pipeline]. *)
Definition retrieved_context (w : world) (query : string) : string :=
  String.concat nl (node_text <$> retrieve w query 8).

Definition retrieved_sources (w : world) (query : string)
    : list (option string) :=
  passage_sources (retrieve w query 8).

Definition initial_context (w : world) (query : string)
    : gmap string string :=
  seed_context query (retrieved_context w query)
    (sources_to_markdown (retrieved_sources w query)).

(** Every step of the list, run on the context its predecessors left,
    returns: its agent is called and the call succeeds. *)
Fixpoint every_step_succeeds (repr_str : string → string) (w : world)
    (cfg : config) (query context sources_md model : string)
    (pipeline_steps : list pipeline_step) (ctx : gmap string string)
    (σ : io) : Prop :=
  match pipeline_steps with
  | [] => True
  | step :: rest =>
      ∃ σ' output_key output execution_time,
        run_step repr_str w cfg query context sources_md model ctx step σ
          = (σ', Ok (output_key, output, execution_time))
        ∧ every_step_succeeds repr_str w cfg query context sources_md model
            rest (<[output_key := output]> ctx) σ'
  end.

(** ** Example inputs *)

Module Examples.

(** [repr] of a string without quotes, backslashes or control characters. *)
Definition plain_repr (s : string) : string := "'" +:+ s +:+ "'".

Definition agent (description : string) : agent_config :=
  {| ac_name := Some description;
     ac_description := Some description;
     ac_system_prompt := Some "You are a careful analyst.";
     ac_parameters := Some (<["temperature" := PFloat "0.3"]> ∅) |}.

Definition agents : gmap string agent_config :=
  <["decomposer" := agent "Breaks the question down"]>
  (<["critique" := agent "Reviews the breakdown"]> ∅).

Definition step (name agent_name : string) : pipeline_step :=
  {| step_name := name;
     step_agent := agent_name;
     step_estimated_time := None;
     step_description := None |}.

(** Two steps, both with a configured agent. *)
Definition two_steps : config :=
  {| cfg_agents := Some agents;
     cfg_pipeline :=
       Some (Some [step "Decompose" "decomposer"; step "Review" "critique"]) |}.

(** The same agent twice. *)
Definition same_agent_twice : config :=
  {| cfg_agents := Some agents;
     cfg_pipeline :=
       Some (Some [step "Decompose" "decomposer";
                   step "Decompose again" "decomposer"]) |}.

(** A second step whose agent is in no table. *)
Definition unknown_second_agent : config :=
  {| cfg_agents := Some agents;
     cfg_pipeline :=
       Some (Some [step "Decompose" "decomposer"; step "Translate" "translator"]) |}.

(** A document with [agents] but without a [pipeline] section. *)
Definition no_pipeline_section : config :=
  {| cfg_agents := Some agents; cfg_pipeline := None |}.

Definition reply (text : string) : response :=
  {| raise_for_status := Ok tt;
     json := Ok (<["response" := text]> ∅) |}.

Definition passages : list passage :=
  [ {| node_text := "Entangled pairs share a state.";
       metadata := <["source" := "a.pdf"]> ∅ |};
    {| node_text := "Measurement outcomes correlate.";
       metadata := ∅ |} ].

Definition index (query : string) (k : nat) : result (list passage) :=
  Ok (take k passages).

Definition world_of
    (server : nat → string → gmap string pyval → pyval → result response)
    : world :=
  {| OLLAMA_URL := "http://localhost:11434";
     requests_post := server;
     clock := λ n, Z.of_nat (10 * n);
     LLAMA_INDEX_AVAILABLE := true;
     get_index := Ok (Some index) |}.

(** Every request is answered. *)
Definition healthy : world :=
  world_of (λ n _ _ _, Ok (reply ("reply " +:+ pretty n))).

(** Every request times out. *)
Definition timing_out : world :=
  world_of (λ _ _ _ _, Raise (RequestsTimeout "Read timed out."))%string.

(** No server is listening. *)
Definition unreachable : world :=
  world_of (λ _ _ _ _, Raise (RequestsConnectionError "Connection refused")).

(** The server answers with an error status. *)
Definition failing_status : world :=
  world_of (λ _ _ _ _,
    Ok {| raise_for_status :=
            Raise (OtherException "HTTPError" "500 Server Error");
          json := Ok ∅ |}).

(** Only the first request is answered. *)
Definition first_only : world :=
  world_of (λ n _ _ _,
    match n with
    | 0 => Ok (reply "A breakdown.")
    | _ => Raise (RequestsConnectionError "Connection refused")
    end).

(** The second request times out, the others are answered. *)
Definition second_times_out : world :=
  world_of (λ n _ _ _,
    match n with
    | 1 => Raise (RequestsTimeout "Read timed out.")
    | _ => Ok (reply ("reply " +:+ pretty n))
    end).

Definition start : io := {| posts := 0; clock_reads := 0 |}.

End Examples.

(** * Properties *)

(** ** The monad *)

Lemma bind_Ok {A B} (m : M A) (k : A → M B) σ σ' a :
  m σ = (σ', Ok a) → (m ≫= k) σ = k a σ'.
Proof. intros H. unfold mbind, M_bind, bind. by rewrite H. Qed.

Lemma bind_Raise {A B} (m : M A) (k : A → M B) σ σ' e :
  m σ = (σ', Raise e) → (m ≫= k) σ = (σ', Raise e).
Proof. intros H. unfold mbind, M_bind, bind. by rewrite H. Qed.

Lemma bind_lift {A B} (r : result A) (k : A → M B) σ :
  (lift r ≫= k) σ =
  match r with Ok a => k a σ | Raise e => (σ, Raise e) end.
Proof. unfold mbind, M_bind, bind, lift. by destruct r. Qed.

(** ** The markdown list of sources *)

Lemma known_source_spec source :
  known_source source = true ↔
  ∃ s, source = Some s ∧ s ≠ "" ∧ s ≠ "Unknown".
Proof.
  destruct source as [s|]; simpl.
  - rewrite andb_true_iff, !negb_true_iff, !String.eqb_neq. split.
    + intros [? ?]. by exists s.
    + by intros (s' & [= <-] & ? & ?).
  - split; [done | by intros (s & ? & _)].
Qed.

Lemma source_line_rendered i source :
  source_line i source = rendered_source i source.
Proof.
  unfold source_line, rendered_source.
  destruct (known_source source) eqn:Hk.
  - apply known_source_spec in Hk as (s & -> & Hne & Hnu).
    simpl. case_decide as Hs; [by destruct Hs | done].
  - destruct source as [s|]; [|done].
    case_decide as Hs; [done|].
    assert (known_source (Some s) = true) as Hk'; [|congruence].
    apply known_source_spec. exists s. split; [done|].
    split; intros ->; apply Hs; auto.
Qed.

Lemma md_sources_lookup sources : ∀ i j,
  md_sources i sources !! j = source_line (i + j) <$> sources !! j.
Proof.
  induction sources as [|source rest IH]; intros i j; [done|].
  destruct j as [|j]; simpl.
  - by rewrite Nat.add_0_r.
  - rewrite IH. by rewrite Nat.add_succ_r.
Qed.

Lemma md_sources_length sources : ∀ i,
  length (md_sources i sources) = length sources.
Proof. induction sources; intros; simpl; [done | by f_equal]. Qed.

(** C7. [sources_to_markdown] gives "No sources available" for the empty
    list, and for ["a.pdf", "Unknown"] the two numbered lines
    "1. **a.pdf**" and "2. Unknown source" joined by a line feed. *)
Theorem sources_to_markdown_examples :
  sources_to_markdown [] = "No sources available"
  ∧ sources_to_markdown [Some "a.pdf"; Some "Unknown"]
    = "1. **a.pdf**" +:+ nl +:+ "2. Unknown source".
Proof. split; reflexivity. Qed.

(** ** Prompt rendering *)

Lemma ctx_get_insert_NA (ctx : gmap string string) key k :
  ctx !! key = None → ctx_get (<[key := "N/A"]> ctx) k = ctx_get ctx k.
Proof.
  intros Hkey. unfold ctx_get.
  destruct (decide (key = k)) as [<-|Hne].
  - by rewrite lookup_insert_eq, Hkey.
  - by rewrite lookup_insert_ne.
Qed.

Lemma render_prompt_output_key agent_name step_name agent_config
    query context sources_md ctx prompt output_key :
  render_prompt agent_name step_name agent_config query context sources_md ctx
    = Ok (prompt, output_key) →
  output_key = declared_output_key agent_name.
Proof.
  unfold render_prompt, declared_output_key.
  destruct (ac_description agent_config); [|done].
  repeat (destruct (String.eqb agent_name _)); by intros [= _ <-].
Qed.



(** ** The request payload *)

Lemma map_fold_override_lookup (base kwargs : gmap string pyval) key :
  map_fold override base kwargs !! key =
  match kwargs !! key with
  | Some value =>
      if negb (is_None value) && negb (String.eqb key "max_tokens")
      then Some value
      else base !! key
  | None => base !! key
  end.
Proof.
  revert key.
  apply (map_fold_weak_ind
           (λ payload kwargs, ∀ key,
              payload !! key =
              match kwargs !! key with
              | Some value =>
                  if negb (is_None value)
                     && negb (String.eqb key "max_tokens")
                  then Some value
                  else base !! key
              | None => base !! key
              end)).
  - intros key. by rewrite lookup_empty.
  - intros k v m payload Hk IH key. unfold override.
    destruct (decide (k = key)) as [<-|Hne].
    + rewrite lookup_insert_eq.
      destruct (negb (is_None v) && negb (String.eqb k "max_tokens")).
      * by rewrite lookup_insert_eq.
      * rewrite IH. by rewrite Hk.
    + rewrite (lookup_insert_ne m) by done.
      destruct (negb (is_None v) && negb (String.eqb k "max_tokens")).
      * rewrite lookup_insert_ne by done. apply IH.
      * apply IH.
Qed.

Lemma elem_of_dom_default_options key :
  key ∈ dom default_options →
  key ∈ ["stop"; "num_ctx"; "repeat_penalty"; "temperature"; "top_p";
         "top_k"; "num_predict"].
Proof.
  unfold default_options. rewrite !dom_insert_L, dom_empty_L.
  rewrite !elem_of_union, !elem_of_singleton, elem_of_empty.
  rewrite !elem_of_cons, elem_of_nil. tauto.
Qed.

Lemma base_payload_default prompt system_prompt model kwargs key :
  key ∈ dom default_options →
  base_payload prompt system_prompt model kwargs !! key =
  match kwargs !! key with
  | Some value => Some value
  | None => default_option kwargs key
  end.
Proof.
  intros Hkey%elem_of_dom_default_options.
  rewrite !elem_of_cons, elem_of_nil in Hkey.
  unfold base_payload, default_option, kwargs_get.
  destruct Hkey as [->|[->|[->|[->|[->|[->|[->|[]]]]]]]];
    simplify_map_eq; try by destruct (kwargs !! _).
  by destruct (kwargs !! "num_predict").
Qed.



(** ** Failures of the generation client *)




(** The three messages differ from their first words on. *)
Lemma generate_messages_differ repr_str w timeout model cause :
  timeout_message repr_str timeout model ≠ connection_message w
  ∧ timeout_message repr_str timeout model ≠ failure_message repr_str cause
  ∧ connection_message w ≠ failure_message repr_str cause.
Proof.
  unfold timeout_message, connection_message, failure_message.
  repeat split; simpl; discriminate.
Qed.

(** ** The step loop *)

Section StepLoop.

Variable repr_str : string → string.
Variable w : world.
Variable cfg : config.
Variables query context sources_md model : string.

#[local] Abbreviation turn :=
  (run_step repr_str w cfg query context sources_md model).
#[local] Abbreviation loop :=
  (run_steps repr_str w cfg query context sources_md model).

Lemma agent_class_known agent_name agent_cls :
  agent_class agent_name = Ok agent_cls →
  agent_name ∈ ["report_formatter"; "synthesis"; "critique"; "decomposer"].
Proof.
  unfold agent_class, AGENT_MAP.
  destruct (_ !! agent_name) as [c|] eqn:Hc; [|done]. intros _.
  rewrite !elem_of_cons.
  repeat (apply lookup_insert_Some in Hc as [[<- _]|[_ Hc]]; [by auto 6|]).
  by rewrite lookup_empty in Hc.
Qed.

(** A completed step wrote under the key declared for its agent, and its
    agent is one of the four of [AGENT_MAP]. *)
Lemma run_step_Ok ctx step σ σ' output_key output execution_time :
  turn ctx step σ = (σ', Ok (output_key, output, execution_time)) →
  output_key = declared_output_key (step_agent step)
  ∧ step_agent step
      ∈ ["report_formatter"; "synthesis"; "critique"; "decomposer"].
Proof.
  unfold run_step. rewrite bind_lift.
  destruct (agent_class (step_agent step)) as [agent_cls|] eqn:Hcls; [|done].
  rewrite bind_lift.
  destruct (get_agent_config cfg (step_agent step)); [|done].
  rewrite bind_lift.
  destruct (render_prompt _ _ _ _ _ _ _) as [[prompt key]|] eqn:Hr; [|done].
  apply render_prompt_output_key in Hr as ->.
  unfold mbind, M_bind, bind, mret, M_ret, ret, time_time.
  destruct (agent_run _ _ _ _ _ _ _) as [σ1 [out|]]; [|done].
  intros [= _ <- _ _]. split; [done|]. by eapply agent_class_known.
Qed.

Lemma run_steps_app l1 : ∀ l2 i ctx steps σ,
  loop i (l1 ++ l2) ctx steps σ =
  match loop i l1 ctx steps σ with
  | (ctx1, steps1, σ1, None) => loop (i + length l1) l2 ctx1 steps1 σ1
  | (ctx1, steps1, σ1, Some e) => (ctx1, steps1, σ1, Some e)
  end.
Proof.
  induction l1 as [|step l1 IH]; intros l2 i ctx steps σ; simpl.
  - by rewrite Nat.add_0_r.
  - destruct (turn ctx step σ) as [σ' [[[key out] t]|e]]; [|done].
    rewrite IH. by rewrite Nat.add_succ_r.
Qed.

(** The loop appends one entry per completed step, in order, and completes
    every step unless one raises. *)
Lemma run_steps_log l : ∀ i ctx steps σ ctx' steps' σ' r,
  loop i l ctx steps σ = (ctx', steps', σ', r) →
  ∃ new,
    steps' = (steps ++ new)%list
    ∧ match r with
      | None => length new = length l
      | Some _ => length new < length l
      end
    ∧ ∀ j entry, new !! j = Some entry →
        ∃ step, l !! j = Some step ∧ records (i + j) step entry.
Proof.
  induction l as [|step l IH]; intros i ctx steps σ ctx' steps' σ' r; simpl.
  - intros [= <- <- <- <-]. exists []. by rewrite app_nil_r.
  - destruct (turn ctx step σ) as [σ1 [[[key out] t]|e]].
    + intros (new & -> & Hlen & Hlog)%IH.
      exists (step_entry i step out t :: new). split; [by rewrite <- app_assoc|].
      split; [destruct r; simpl; lia|].
      intros [|j] entry; simpl.
      * intros [= <-]. exists step. by rewrite Nat.add_0_r.
      * intros (step' & ? & ?)%Hlog. exists step'.
        by rewrite Nat.add_succ_r.
    + intros [= <- <- <- <-]. exists []. rewrite app_nil_r.
      split; [done|]. split; [simpl; lia|]. by intros [|].
Qed.

(** The keys of [ctx] after the loop: those it had, and the declared output
    keys of the completed steps. *)
Lemma run_steps_dom l : ∀ i ctx steps σ ctx' steps' σ' r,
  loop i l ctx steps σ = (ctx', steps', σ', r) →
  dom ctx' =
  dom ctx
  ∪ list_to_set
      (declared_output_key ∘ step_agent
         <$> take (length steps' - length steps) l).
Proof.
  induction l as [|step l IH]; intros i ctx steps σ ctx' steps' σ' r; simpl.
  - intros [= <- <- <- <-]. rewrite take_nil. set_solver.
  - destruct (turn ctx step σ) as [σ1 [[[key out] t]|e]] eqn:Hstep.
    + intros Hrun. pose proof Hrun as (new & -> & _ & _)%run_steps_log.
      apply IH in Hrun. rewrite Hrun.
      apply run_step_Ok in Hstep as [-> _].
      set (entry := step_entry i step out t).
      assert (length ((steps ++ [entry]) ++ new) - length (steps ++ [entry])
              = length new) as -> by (rewrite !length_app; simpl; lia).
      assert (length ((steps ++ [entry]) ++ new) - length steps
              = S (length new)) as -> by (rewrite !length_app; simpl; lia).
      rewrite dom_insert_L. simpl. set_solver.
    + intros [= <- <- <- <-]. rewrite Nat.sub_diag. simpl. set_solver.
Qed.

(** The agents of completed steps are those of [AGENT_MAP]. *)
Lemma loop_completed_agents pipeline_steps : ∀ i ctx steps σ ctx' steps' σ',
  loop i pipeline_steps ctx steps σ = (ctx', steps', σ', None) →
  Forall (λ step, step_agent step
                    ∈ ["report_formatter"; "synthesis"; "critique";
                       "decomposer"]) pipeline_steps.
Proof.
  induction pipeline_steps as [|step rest IH];
    intros i ctx steps σ ctx' steps' σ'; simpl; [done|].
  destruct (turn ctx step σ) as [σ1 [[[key out] t]|e]] eqn:Hstep; [|done].
  intros Hrest. constructor; [|by eapply IH].
  by eapply run_step_Ok.
Qed.

End StepLoop.

(** ** The pipeline *)

Section Pipeline.

Variable repr_str : string → string.
Variable w : world.
Variable cfg : config.
Variables query model : string.

#[local] Abbreviation context := (retrieved_context w query).
#[local] Abbreviation sources_md :=
  (sources_to_markdown (retrieved_sources w query)).
#[local] Abbreviation turn :=
  (run_step repr_str w cfg query context sources_md model).
#[local] Abbreviation loop :=
  (run_steps repr_str w cfg query context sources_md model).
#[local] Abbreviation fallback steps :=
  (generate repr_str w (fallback_prompt query context steps)
     fallback_system_prompt model ∅).

(** The [except] branch when the three locals are bound. *)
Lemma handle_failure_bound ctx_text labels steps e σ :
  handle_failure repr_str w query model
    (Frame (Some ctx_text) (Some labels) (Some steps)) e σ =
  match steps with
  | [] => (σ, Ok (failure_result labels (error_message repr_str [] e)))
  | _ :: _ =>
      match generate repr_str w (fallback_prompt query ctx_text steps)
              fallback_system_prompt model ∅ σ with
      | (σ', Ok text) =>
          (σ', Ok (partial_result text labels steps
                     (error_message repr_str steps e)))
      | (σ', Raise _) =>
          (σ', Ok (failure_result labels (error_message repr_str steps e)))
      end
  end.
Proof.
  unfold handle_failure, local, try_except, mbind, M_bind, bind, mret, M_ret,
    ret.
  destruct steps as [|entry steps]; [done|]. simpl.
  by destruct (generate _ _ _ _ _ _ σ) as [σ' [text|e']].
Qed.

(** The [except] branch when the exception came before [steps = []]. *)
Lemma handle_failure_unbound e σ :
  handle_failure repr_str w query model (Frame None None None) e σ
  = (σ, Raise (UnboundLocalError "steps")).
Proof. reflexivity. Qed.

Lemma run_pipeline_config_failure e σ :
  get_pipeline_steps cfg = Raise e →
  run_pipeline repr_str w cfg query model σ
  = (σ, Raise (UnboundLocalError "steps")).
Proof. intros H. unfold run_pipeline. by rewrite H. Qed.

(** [run_pipeline] in terms of the loop. *)
Lemma run_pipeline_loop pipeline_steps σ :
  get_pipeline_steps cfg = Ok pipeline_steps →
  run_pipeline repr_str w cfg query model σ =
  match loop 0 pipeline_steps (initial_context w query) [] σ with
  | (_, steps, σ', Some e) =>
      match steps with
      | [] =>
          (σ', Ok (failure_result (retrieved_sources w query)
                     (error_message repr_str [] e)))
      | _ :: _ =>
          match fallback steps σ' with
          | (σ'', Ok text) =>
              (σ'', Ok (partial_result text (retrieved_sources w query) steps
                          (error_message repr_str steps e)))
          | (σ'', Raise _) =>
              (σ'', Ok (failure_result (retrieved_sources w query)
                          (error_message repr_str steps e)))
          end
      end
  | (ctx', steps, σ', None) =>
      (σ', Ok (success_result ctx' (retrieved_sources w query) steps model))
  end.
Proof.
  intros H.
  unfold run_pipeline, initial_context, retrieved_context, retrieved_sources.
  rewrite H. cbv zeta.
  destruct (run_steps _ _ _ _ _ _ _ _ _ _ _ σ)
    as [[[ctx' steps] σ'] [e|]]; [|done].
  apply handle_failure_bound.
Qed.

(** Whatever [run_pipeline] returns carries the labels of the retrieved
    passages. *)
Lemma run_pipeline_sources σ σ' r :
  run_pipeline repr_str w cfg query model σ = (σ', Ok r) →
  sources r = retrieved_sources w query.
Proof.
  destruct (get_pipeline_steps cfg) as [pipeline_steps|e] eqn:Hcfg.
  - rewrite (run_pipeline_loop _ _ Hcfg).
    destruct (loop 0 pipeline_steps _ [] σ) as [[[ctx' steps] σ1] [e|]].
    + destruct steps; [by intros [= _ <-]|].
      destruct (fallback _ σ1) as [σ2 [text|e']]; by intros [= _ <-].
    + by intros [= _ <-].
  - by rewrite (run_pipeline_config_failure _ _ Hcfg).
Qed.

Lemma every_step_succeeds_loop pipeline_steps : ∀ i ctx steps σ,
  every_step_succeeds repr_str w cfg query context sources_md model
    pipeline_steps ctx σ →
  ∃ ctx' steps' σ', loop i pipeline_steps ctx steps σ = (ctx', steps', σ', None).
Proof.
  induction pipeline_steps as [|step rest IH]; intros i ctx steps σ; simpl.
  - eauto.
  - intros (σ1 & key & out & t & -> & Hrest). eauto.
Qed.

End Pipeline.

(** C2. When every configured step succeeds, [run_pipeline] returns a
    success result: one log entry per configured step, in order,
    [pipeline_complete] true, the answer is the value of the final context
    under "final_report" or else the sentinel, and the result carries the
    labels of all retrieved passages. *)
Theorem all_steps_succeed_gives_success
    repr_str w cfg query model σ pipeline_steps :
  get_pipeline_steps cfg = Ok pipeline_steps →
  every_step_succeeds repr_str w cfg query (retrieved_context w query)
    (sources_to_markdown (retrieved_sources w query)) model
    pipeline_steps (initial_context w query) σ →
  ∃ ctx' σ' r,
    run_pipeline repr_str w cfg query model σ = (σ', Ok r)
    ∧ run_steps repr_str w cfg query (retrieved_context w query)
        (sources_to_markdown (retrieved_sources w query)) model
        0 pipeline_steps (initial_context w query) [] σ
      = (ctx', debug_steps r, σ', None)
    ∧ length (debug_steps r) = length pipeline_steps
    ∧ pipeline_complete r = true
    ∧ answer r =
      default "Pipeline completed but no final report generated"
              (ctx' !! "final_report")
    ∧ sources r = retrieved_sources w query
    ∧ ∀ j step, pipeline_steps !! j = Some step →
        ∃ entry, debug_steps r !! j = Some entry ∧ records j step entry.
Proof.
  intros Hcfg Hall.
  destruct (every_step_succeeds_loop _ _ _ _ _ _ 0 _ [] _ Hall)
    as (ctx' & steps & σ' & Hloop).
  exists ctx', σ', (success_result ctx' (retrieved_sources w query) steps model).
  rewrite (run_pipeline_loop _ _ _ _ _ _ _ Hcfg), Hloop. simpl.
  destruct (run_steps_log _ _ _ _ _ _ _ _ _ _ _ _ _ _ _ _ Hloop)
    as (new & -> & Hlen & Hlog).
  simpl. repeat (split; [done|]).
  intros j step Hj.
  destruct (lookup_lt_is_Some_2 new j) as [entry Hentry].
  { rewrite Hlen. by eapply lookup_lt_Some. }
  exists entry. split; [done|].
  destruct (Hlog _ _ Hentry) as (step' & Hj' & Hrec).
  by simplify_eq.
Qed.

(** Two steps on a healthy server. *)
Lemma all_steps_succeed_gives_success_witness :
  ∃ (ctx' : gmap string string) σ' r,
    run_pipeline Examples.plain_repr Examples.healthy Examples.two_steps
      "What is quantum entanglement?" "gemma3:4b" Examples.start
    = (σ', Ok r)
    ∧ ctx' !! "final_report" = None
    ∧ length (debug_steps r) = 2
    ∧ pipeline_complete r = true
    ∧ answer r = "Pipeline completed but no final report generated".
Proof.
  destruct (all_steps_succeed_gives_success Examples.plain_repr
              Examples.healthy Examples.two_steps
              "What is quantum entanglement?" "gemma3:4b" Examples.start
              [Examples.step "Decompose" "decomposer";
               Examples.step "Review" "critique"])
    as (ctx' & σ' & r & Hrun & Hloop & Hlen & Hdone & Hanswer & _).
  - reflexivity.
  - simpl. eexists _, _, _, _. split; [vm_compute; reflexivity|].
    eexists _, _, _, _. split; [vm_compute; reflexivity|]. exact I.
  - exists ctx', σ', r.
    assert (ctx' !! "final_report" = None) as Hnone.
    { vm_compute in Hloop. by injection Hloop as <- _ _. }
    rewrite Hnone in Hanswer. done.
Defined.

(** C1, as the code has it. Let step [k] (from 1) raise after the steps
    before it completed. If [k = 1] the result is a total failure, whatever
    the fallback call would do. If [k > 1] and the fallback call returns,
    the result is a partial failure: [k - 1] log entries,
    [pipeline_complete] false, and the answer is the fallback text after
    the warning marker. If [k > 1] and the fallback call raises, the result
    is a total failure. *)
Theorem failing_step_gives_partial_or_total_failure
    repr_str w cfg query model σ pipeline_steps (k : nat) failing
    ctx1 steps1 σ1 σ2 e :
  get_pipeline_steps cfg = Ok pipeline_steps →
  (1 ≤ k)%nat →
  pipeline_steps !! (k - 1) = Some failing →
  run_steps repr_str w cfg query (retrieved_context w query)
    (sources_to_markdown (retrieved_sources w query)) model
    0 (take (k - 1) pipeline_steps) (initial_context w query) [] σ
  = (ctx1, steps1, σ1, None) →
  run_step repr_str w cfg query (retrieved_context w query)
    (sources_to_markdown (retrieved_sources w query)) model ctx1 failing σ1
  = (σ2, Raise e) →
  length steps1 = k - 1
  ∧ (k = 1 →
     run_pipeline repr_str w cfg query model σ
     = (σ2, Ok (failure_result (retrieved_sources w query)
                  (error_message repr_str steps1 e))))
  ∧ ((1 < k)%nat → ∀ σ3 text,
       generate repr_str w
         (fallback_prompt query (retrieved_context w query) steps1)
         fallback_system_prompt model ∅ σ2 = (σ3, Ok text) →
       ∃ r,
         run_pipeline repr_str w cfg query model σ = (σ3, Ok r)
         ∧ debug_steps r = steps1
         ∧ length (debug_steps r) = k - 1
         ∧ pipeline_complete r = false
         ∧ partial_success r = Some true
         ∧ answer r = partial_marker +:+ text
         ∧ error r = Some (error_message repr_str steps1 e))
  ∧ ((1 < k)%nat → ∀ σ3 e',
       generate repr_str w
         (fallback_prompt query (retrieved_context w query) steps1)
         fallback_system_prompt model ∅ σ2 = (σ3, Raise e') →
       run_pipeline repr_str w cfg query model σ
       = (σ3, Ok (failure_result (retrieved_sources w query)
                    (error_message repr_str steps1 e)))).
Proof.
  intros Hcfg Hk Hfailing Hdone Hstep.
  assert (length steps1 = k - 1) as Hlen.
  { destruct (run_steps_log _ _ _ _ _ _ _ _ _ _ _ _ _ _ _ _ Hdone)
      as (new & -> & Hnew & _).
    simpl. rewrite Hnew. apply length_take_le.
    apply lookup_lt_Some in Hfailing. lia. }
  assert (run_steps repr_str w cfg query (retrieved_context w query)
            (sources_to_markdown (retrieved_sources w query)) model
            0 pipeline_steps (initial_context w query) [] σ
          = (ctx1, steps1, σ2, Some e)) as Hloop.
  { rewrite <- (take_drop_middle pipeline_steps (k - 1) failing) at 1 by done.
    rewrite run_steps_app, Hdone. simpl. by rewrite Hstep. }
  rewrite (run_pipeline_loop _ _ _ _ _ _ _ Hcfg), Hloop.
  split; [done|]. split; [|split].
  - intros ->. by destruct steps1.
  - intros Hgt σ3 text Hfb. destruct steps1 as [|entry steps1]; [simpl in *; lia|].
    rewrite Hfb. eexists. split; [done|]. by repeat split.
  - intros Hgt σ3 e' Hfb. destruct steps1 as [|entry steps1]; [simpl in *; lia|].
    by rewrite Hfb.
Qed.

(** The second of two steps times out and the fallback call is answered. *)
Lemma failing_step_gives_partial_or_total_failure_witness :
  ∃ σ3 r,
    run_pipeline Examples.plain_repr Examples.second_times_out
      Examples.two_steps "What is quantum entanglement?" "gemma3:4b"
      Examples.start = (σ3, Ok r)
    ∧ length (debug_steps r) = 1
    ∧ pipeline_complete r = false
    ∧ answer r = partial_marker +:+ "reply 2".
Proof.
  edestruct (failing_step_gives_partial_or_total_failure
               Examples.plain_repr Examples.second_times_out
               Examples.two_steps "What is quantum entanglement?"
               "gemma3:4b" Examples.start
               [Examples.step "Decompose" "decomposer";
                Examples.step "Review" "critique"]
               2 (Examples.step "Review" "critique"))
    as (_ & _ & Hpartial & _).
  - reflexivity.
  - lia.
  - reflexivity.
  - vm_compute. reflexivity.
  - vm_compute. reflexivity.
  - edestruct Hpartial as (r & Hrun & _ & Hlen & Hdone & _ & Hanswer & _).
    + lia.
    + vm_compute. reflexivity.
    + eexists _, r. split; [exact Hrun|]. split; [exact Hlen|].
      split; [exact Hdone|]. exact Hanswer.
Defined.

(** C1, as stated, fails on the answer: when the second step fails and the
    fallback call returns "reply 2", the answer of the partial-failure
    result is not that text (the warning marker precedes it). *)
Lemma partial_answer_is_not_the_fallback_text :
  ∃ σ3 r,
    run_pipeline Examples.plain_repr Examples.second_times_out
      Examples.two_steps "What is quantum entanglement?" "gemma3:4b"
      Examples.start = (σ3, Ok r)
    ∧ partial_success r = Some true
    ∧ generate Examples.plain_repr Examples.second_times_out
        (fallback_prompt "What is quantum entanglement?"
           (retrieved_context Examples.second_times_out
              "What is quantum entanglement?")
           (debug_steps r))
        fallback_system_prompt "gemma3:4b" ∅
        {| posts := 2; clock_reads := 6 |}
      = (σ3, Ok "reply 2")
    ∧ answer r ≠ "reply 2".
Proof.
  eexists _, _. split; [vm_compute; reflexivity|].
  split; [reflexivity|]. split; [vm_compute; reflexivity|].
  simpl. discriminate.
Qed.

(** C3. A configuration without a [pipeline] section: the look-up of the
    steps raises before [steps] is bound, the [except] branch reads
    [steps], and the [UnboundLocalError] leaves [run_pipeline]. *)
Theorem run_pipeline_raises_without_pipeline_section :
  run_pipeline Examples.plain_repr Examples.healthy
    Examples.no_pipeline_section "What is quantum entanglement?" "gemma3:4b"
    Examples.start
  = (Examples.start, Raise (UnboundLocalError "steps")).
Proof. reflexivity. Qed.

(** C4, as stated, fails: the first step completes, the second fails and so
    does the fallback call; the total-failure result has an empty step log
    although the loop had logged one step. *)
Lemma total_failure_drops_completed_steps :
  ∃ ctx steps σ1 e σ' r,
    run_steps Examples.plain_repr Examples.first_only Examples.two_steps
      "What is quantum entanglement?"
      (retrieved_context Examples.first_only "What is quantum entanglement?")
      (sources_to_markdown
         (retrieved_sources Examples.first_only
            "What is quantum entanglement?"))
      "gemma3:4b" 0
      [Examples.step "Decompose" "decomposer";
       Examples.step "Review" "critique"]
      (initial_context Examples.first_only "What is quantum entanglement?")
      [] Examples.start
    = (ctx, steps, σ1, Some e)
    ∧ length steps = 1
    ∧ run_pipeline Examples.plain_repr Examples.first_only Examples.two_steps
        "What is quantum entanglement?" "gemma3:4b" Examples.start
      = (σ', Ok r)
    ∧ pipeline_complete r = false
    ∧ debug_steps r = [].
Proof.
  eexists _, _, _, _, _, _. split; [vm_compute; reflexivity|].
  split; [reflexivity|]. split; [vm_compute; reflexivity|].
  split; reflexivity.
Qed.

(** C4, as the code has it. Every failure result carries the labels of the
    retrieved passages and the message "Pipeline failed at step N: ...",
    where N counts the completed steps plus one. A partial failure carries
    the log of the completed steps; a total failure carries an empty log. *)
Theorem failure_results_carry_sources_and_error
    repr_str w cfg query model σ σ' r :
  run_pipeline repr_str w cfg query model σ = (σ', Ok r) →
  pipeline_complete r = false →
  ∃ pipeline_steps ctx steps σ1 e,
    get_pipeline_steps cfg = Ok pipeline_steps
    ∧ run_steps repr_str w cfg query (retrieved_context w query)
        (sources_to_markdown (retrieved_sources w query)) model
        0 pipeline_steps (initial_context w query) [] σ
      = (ctx, steps, σ1, Some e)
    ∧ sources r = retrieved_sources w query
    ∧ error r = Some (error_message repr_str steps e)
    ∧ ((partial_success r = Some true ∧ steps ≠ [] ∧ debug_steps r = steps)
       ∨ (partial_success r = Some false ∧ debug_steps r = []
          ∧ total_steps r = 0)).
Proof.
  destruct (get_pipeline_steps cfg) as [pipeline_steps|e0] eqn:Hcfg.
  2: { by rewrite (run_pipeline_config_failure _ _ _ _ _ _ _ Hcfg). }
  rewrite (run_pipeline_loop _ _ _ _ _ _ _ Hcfg).
  destruct (run_steps _ _ _ _ _ _ _ _ _ _ _ σ)
    as [[[ctx steps] σ1] [e|]] eqn:Hloop.
  2: { by intros [= _ <-]. }
  intros Hrun _. exists pipeline_steps, ctx, steps, σ1, e.
  split; [done|]. split; [done|].
  destruct steps as [|entry steps].
  - injection Hrun as _ <-. simpl. auto 6.
  - destruct (generate _ _ _ _ _ _ σ1) as [σ2 [text|e']];
      injection Hrun as _ <-; simpl.
    + split; [done|]. split; [done|]. by left.
    + split; [done|]. split; [done|]. by right.
Qed.

(** The run in which only the first request is answered. *)
Lemma failure_results_carry_sources_and_error_witness :
  ∃ σ' r,
    run_pipeline Examples.plain_repr Examples.first_only Examples.two_steps
      "What is quantum entanglement?" "gemma3:4b" Examples.start
    = (σ', Ok r)
    ∧ pipeline_complete r = false
    ∧ sources r = [Some "a.pdf"; None]
    ∧ is_Some (error r).
Proof.
  eexists _, _.
  assert (run_pipeline Examples.plain_repr Examples.first_only
            Examples.two_steps "What is quantum entanglement?" "gemma3:4b"
            Examples.start = _) as Hrun by (vm_compute; reflexivity).
  split; [exact Hrun|]. split; [reflexivity|].
  destruct (failure_results_carry_sources_and_error _ _ _ _ _ _ _ _ Hrun)
    as (? & ? & ? & ? & ? & _ & _ & Hsources & Herror & _); [reflexivity|].
  split; [exact Hsources|]. by rewrite Herror.
Defined.

(** ** The keys of the pipeline context *)

Lemma dom_seed_context query context sources_md :
  dom (seed_context query context sources_md) = seed_keys.
Proof.
  unfold seed_context, seed_keys. rewrite !dom_insert_L, dom_empty_L.
  set_solver.
Qed.

Lemma declared_output_key_inj a b :
  a ∈ ["report_formatter"; "synthesis"; "critique"; "decomposer"] →
  b ∈ ["report_formatter"; "synthesis"; "critique"; "decomposer"] →
  declared_output_key a = declared_output_key b → a = b.
Proof.
  rewrite !elem_of_cons, !elem_of_nil.
  intros [->|[->|[->|[->|[]]]]] [->|[->|[->|[->|[]]]]]; by cbv.
Qed.

Lemma declared_output_key_not_seed a :
  a ∈ ["report_formatter"; "synthesis"; "critique"; "decomposer"] →
  declared_output_key a ∉ seed_keys.
Proof.
  rewrite !elem_of_cons, !elem_of_nil. unfold seed_keys.
  intros [->|[->|[->|[->|[]]]]]; cbv [declared_output_key String.eqb Ascii.eqb Bool.eqb];
    rewrite !elem_of_union, !elem_of_singleton; intros [[?|?]|?]; done.
Qed.

(** C5, as the code has it. After the steps 1..i+1 have completed, the
    context holds exactly the three seed keys and the declared output keys
    of those steps. The last of them wrote one key, its declared output
    key, on top of the context the steps before it left, so no key was
    removed; that key is new exactly when no earlier step has the same
    agent. *)
Theorem completed_step_writes_its_declared_key
    repr_str w cfg query context sources_md model
    pipeline_steps i step σ (ctx' : gmap string string) steps' σ' :
  pipeline_steps !! i = Some step →
  run_steps repr_str w cfg query context sources_md model
    0 (take (S i) pipeline_steps)
    (seed_context query context sources_md) [] σ
  = (ctx', steps', σ', None) →
  dom ctx' =
    seed_keys
    ∪ list_to_set
        (declared_output_key ∘ step_agent <$> take (S i) pipeline_steps)
  ∧ ∃ (ctx_prev : gmap string string) steps_prev σ_prev output,
      run_steps repr_str w cfg query context sources_md model
        0 (take i pipeline_steps)
        (seed_context query context sources_md) [] σ
      = (ctx_prev, steps_prev, σ_prev, None)
      ∧ ctx' = <[declared_output_key (step_agent step) := output]> ctx_prev
      ∧ dom ctx_prev ⊆ dom ctx'
      ∧ (ctx_prev !! declared_output_key (step_agent step) = None
         ↔ step_agent step ∉ step_agent <$> take i pipeline_steps).
Proof.
  intros Hi. rewrite (take_S_r _ _ _ Hi), run_steps_app.
  destruct (run_steps _ _ _ _ _ _ _ 0 (take i pipeline_steps) _ [] σ)
    as [[[ctx_prev steps_prev] σ_prev] [e|]] eqn:Hprev; [done|].
  simpl.
  destruct (run_step _ _ _ _ _ _ _ ctx_prev step σ_prev)
    as [σ1 [[[key out] t]|e]] eqn:Hstep; [|done].
  intros [= <- <- <-].
  apply run_step_Ok in Hstep as [-> Hknown].
  assert (dom ctx_prev =
          seed_keys
          ∪ list_to_set
              (declared_output_key ∘ step_agent <$> take i pipeline_steps))
    as Hdom.
  { rewrite (run_steps_dom _ _ _ _ _ _ _ _ _ _ _ _ _ _ _ _ Hprev).
    destruct (run_steps_log _ _ _ _ _ _ _ _ _ _ _ _ _ _ _ _ Hprev)
      as (new & -> & Hlen & _).
    simpl. rewrite Nat.sub_0_r, Hlen, take_ge by lia.
    by rewrite dom_seed_context. }
  split.
  { rewrite dom_insert_L, Hdom, fmap_app, list_to_set_app_L. simpl.
    set_solver. }
  exists ctx_prev, steps_prev, σ_prev, out.
  split; [done|]. split; [done|]. split.
  { rewrite dom_insert_L. set_solver. }
  rewrite <- not_elem_of_dom, Hdom, not_elem_of_union, elem_of_list_to_set.
  rewrite !list_elem_of_fmap. split.
  - intros [_ Hnew] (step' & Hagent & Hin). apply Hnew.
    exists step'. split; [|done]. simpl. by rewrite Hagent.
  - intros Hnew. split; [by apply declared_output_key_not_seed|].
    intros (step' & Hkey & Hin). apply Hnew. exists step'. split; [|done].
    apply declared_output_key_inj; [done| |done].
    pose proof (loop_completed_agents _ _ _ _ _ _ _ _ _ _ _ _ _ _ _ Hprev)
      as Hall.
    rewrite Forall_forall in Hall. by apply Hall.
Qed.

(** The first step of two on a healthy server. *)
Lemma completed_step_writes_its_declared_key_witness :
  ∃ (ctx' : gmap string string),
    dom ctx' = seed_keys ∪ {[ "breakdown" ]}
    ∧ is_Some (ctx' !! "breakdown").
Proof.
  edestruct (completed_step_writes_its_declared_key Examples.plain_repr
               Examples.healthy Examples.two_steps
               "What is quantum entanglement?" "" "No sources available"
               "gemma3:4b"
               [Examples.step "Decompose" "decomposer";
                Examples.step "Review" "critique"]
               0 (Examples.step "Decompose" "decomposer") Examples.start)
    as (Hdom & ctx_prev & steps_prev & σ_prev & out & _ & Hctx & _).
  - reflexivity.
  - vm_compute. reflexivity.
  - eexists. split.
    + rewrite Hdom. simpl. set_solver.
    + rewrite Hctx. rewrite lookup_insert_eq. by eexists.
Defined.

(** C5, as stated, fails: with the same agent configured twice, both steps
    complete and the second adds no key; the context has four keys, not
    five. *)
Lemma repeated_agent_adds_no_key :
  ∃ (ctx1 ctx2 : gmap string string) steps1 steps2 σ1 σ2,
    run_steps Examples.plain_repr Examples.healthy Examples.same_agent_twice
      "What is quantum entanglement?" "" "No sources available" "gemma3:4b"
      0 [Examples.step "Decompose" "decomposer"]
      (seed_context "What is quantum entanglement?" ""
         "No sources available") [] Examples.start
    = (ctx1, steps1, σ1, None)
    ∧ run_steps Examples.plain_repr Examples.healthy
        Examples.same_agent_twice
        "What is quantum entanglement?" "" "No sources available" "gemma3:4b"
        0 [Examples.step "Decompose" "decomposer";
           Examples.step "Decompose again" "decomposer"]
        (seed_context "What is quantum entanglement?" ""
           "No sources available") [] Examples.start
      = (ctx2, steps2, σ2, None)
    ∧ length steps2 = 2
    ∧ dom ctx2 = dom ctx1
    ∧ size ctx2 = 4.
Proof.
  eexists _, _, _, _, _, _. split; [vm_compute; reflexivity|].
  split; [vm_compute; reflexivity|]. split; [reflexivity|].
  split; vm_compute; reflexivity.
Qed.

(** ** Passages without a source label *)

(** C10. A retrieved passage whose metadata has no "source" puts [None]
    in the sources of the result. In the markdown list, [None], the empty
    string and "Unknown" alike give the line "<i>. Unknown source", and any
    other label gives "<i>. **<label>**"; the lines are joined by line
    feeds. *)
Theorem unlabelled_sources_render_as_unknown
    repr_str w cfg query model σ σ' r :
  run_pipeline repr_str w cfg query model σ = (σ', Ok r) →
  (∀ j p,
     retrieve w query 8 !! j = Some p →
     metadata p !! "source" = None →
     sources r !! j = Some None)
  ∧ (∀ (labels : list (option string)) j source,
       labels !! j = Some source →
       sources_to_markdown labels = String.concat nl (md_sources 1 labels)
       ∧ md_sources 1 labels !! j = Some (rendered_source (S j) source)).
Proof.
  intros Hrun. split.
  - intros j p Hj Hmeta. rewrite (run_pipeline_sources _ _ _ _ _ _ _ _ Hrun).
    unfold retrieved_sources, passage_sources.
    by rewrite list_lookup_fmap, Hj; simpl; rewrite Hmeta.
  - intros labels j source Hj. split.
    + by destruct labels.
    + rewrite md_sources_lookup, Hj. simpl.
      by rewrite source_line_rendered.
Qed.

(** The second retrieved passage has no label. *)
Lemma unlabelled_sources_render_as_unknown_witness :
  ∃ σ' r,
    run_pipeline Examples.plain_repr Examples.healthy Examples.two_steps
      "What is quantum entanglement?" "gemma3:4b" Examples.start
    = (σ', Ok r)
    ∧ sources r !! 1 = Some None
    ∧ md_sources 1 (sources r) !! 1 = Some "2. Unknown source"
    ∧ md_sources 1 [Some ""; Some "Unknown"; Some "b.txt"]
      = ["1. Unknown source"; "2. Unknown source"; "3. **b.txt**"].
Proof.
  eexists _, _.
  assert (run_pipeline Examples.plain_repr Examples.healthy
            Examples.two_steps "What is quantum entanglement?" "gemma3:4b"
            Examples.start = _) as Hrun by (vm_compute; reflexivity).
  split; [exact Hrun|].
  destruct (unlabelled_sources_render_as_unknown _ _ _ _ _ _ _ _ Hrun)
    as [Hnone Hline].
  split; [|split].
  - eapply (Hnone 1); reflexivity.
  - exact (proj2 (Hline [Some "a.pdf"; None] 1 None eq_refl)).
  - reflexivity.
Defined.
